(** * pyfastocloud_models: the subscriber aggregate

    A shallow embedding of [pyfastocloud_models/subscriber/entry.py]:
    the [Device] and [UserStream] embedded documents, the [Subscriber]
    document with its device registry, its stream associations, the
    playlist generation, the soft delete and the password hashing.

    The document store is explicit: a method of [Subscriber] is a
    computation over the in-memory object [self], the [subscribers]
    collection, the catalog of [IStream] documents and a journal of the
    persistence calls that were issued. *)

From Stdlib Require Import ZArith String Ascii List Lia.
From stdpp Require Import base decidable option list gmap strings.

Local Open Scope Z_scope.

(** ** hashlib.md5

    [md5()], [update] and [hexdigest] of Python's [hashlib], as RFC 1321
    defines the digest: 32-bit words are [Z] reduced with [Z.land], bytes
    are [Z] in [0, 256). *)
Module MD5.

Definition mask32 (x : Z) : Z := Z.land x 0xffffffff.

Definition add32 (x y : Z) : Z := mask32 (x + y).

Definition not32 (x : Z) : Z := Z.lxor (mask32 x) 0xffffffff.

Definition rotl32 (x c : Z) : Z :=
  Z.lor (mask32 (Z.shiftl x c)) (Z.shiftr (mask32 x) (32 - c)).

(** Per-round shift amounts. *)
Definition SHIFT : list Z :=
  [7; 12; 17; 22; 7; 12; 17; 22; 7; 12; 17; 22; 7; 12; 17; 22;
   5; 9; 14; 20; 5; 9; 14; 20; 5; 9; 14; 20; 5; 9; 14; 20;
   4; 11; 16; 23; 4; 11; 16; 23; 4; 11; 16; 23; 4; 11; 16; 23;
   6; 10; 15; 21; 6; 10; 15; 21; 6; 10; 15; 21; 6; 10; 15; 21].

(** [K i = floor (2^32 * |sin (i + 1)|)]. *)
Definition K : list Z :=
  [0xd76aa478; 0xe8c7b756; 0x242070db; 0xc1bdceee; 0xf57c0faf; 0x4787c62a;
   0xa8304613; 0xfd469501; 0x698098d8; 0x8b44f7af; 0xffff5bb1; 0x895cd7be;
   0x6b901122; 0xfd987193; 0xa679438e; 0x49b40821; 0xf61e2562; 0xc040b340;
   0x265e5a51; 0xe9b6c7aa; 0xd62f105d; 0x02441453; 0xd8a1e681; 0xe7d3fbc8;
   0x21e1cde6; 0xc33707d6; 0xf4d50d87; 0x455a14ed; 0xa9e3e905; 0xfcefa3f8;
   0x676f02d9; 0x8d2a4c8a; 0xfffa3942; 0x8771f681; 0x6d9d6122; 0xfde5380c;
   0xa4beea44; 0x4bdecfa9; 0xf6bb4b60; 0xbebfbc70; 0x289b7ec6; 0xeaa127fa;
   0xd4ef3085; 0x04881d05; 0xd9d4d039; 0xe6db99e5; 0x1fa27cf8; 0xc4ac5665;
   0xf4292244; 0x432aff97; 0xab9423a7; 0xfc93a039; 0x655b59c3; 0x8f0ccc92;
   0xffeff47d; 0x85845dd1; 0x6fa87e4f; 0xfe2ce6e0; 0xa3014314; 0x4e0811a1;
   0xf7537e82; 0xbd3af235; 0x2ad7d2bb; 0xeb86d391].

(** The chaining value (A, B, C, D). *)
Record state := State { sA : Z; sB : Z; sC : Z; sD : Z }.

Definition init : state :=
  State 0x67452301 0xefcdab89 0x98badcfe 0x10325476.

(** One of the 64 operations on the block [M] of sixteen words. *)
Definition step (M : list Z) (st : state) (i : nat) : state :=
  let '(State a b c d) := st in
  let iz := Z.of_nat i in
  let '(f, g) :=
    if iz <? 16 then (Z.lor (Z.land b c) (Z.land (not32 b) d), iz)
    else if iz <? 32 then
      (Z.lor (Z.land d b) (Z.land (not32 d) c), (5 * iz + 1) mod 16)
    else if iz <? 48 then (Z.lxor (Z.lxor b c) d, (3 * iz + 5) mod 16)
    else (Z.lxor c (Z.lor b (not32 d)), (7 * iz) mod 16) in
  let f' := add32 (add32 (add32 f a) (nth i K 0)) (nth (Z.to_nat g) M 0) in
  State d (add32 b (rotl32 f' (nth i SHIFT 0))) b c.

(** Four bytes, least significant first, to a word and back. *)
Definition word_of_bytes (bs : list Z) : Z :=
  fold_right (fun b acc => Z.lor (Z.land b 255) (Z.shiftl acc 8)) 0 bs.

Definition bytes_of_word (w : Z) : list Z :=
  [Z.land w 255; Z.land (Z.shiftr w 8) 255;
   Z.land (Z.shiftr w 16) 255; Z.land (Z.shiftr w 24) 255].

Definition words_of_block (block : list Z) : list Z :=
  map (fun j => word_of_bytes (take 4 (drop (4 * j) block))) (seq 0 16).

Definition compress (st : state) (block : list Z) : state :=
  let M := words_of_block block in
  let '(State a b c d) := fold_left (step M) (seq 0 64) st in
  State (add32 (sA st) a) (add32 (sB st) b)
        (add32 (sC st) c) (add32 (sD st) d).

(** Padding: a one bit, zeros up to 56 modulo 64, the bit length on
    eight bytes. *)
Definition pad (msg : list Z) : list Z :=
  let len := Z.of_nat (length msg) in
  let bits := (8 * len) mod 2 ^ 64 in
  msg ++ [128] ++ replicate (Z.to_nat ((55 - len) mod 64)) 0
      ++ bytes_of_word bits ++ bytes_of_word (Z.shiftr bits 32).

Definition digest_state (msg : list Z) : state :=
  let padded := pad msg in
  fold_left
    (fun st j => compress st (take 64 (drop (64 * j) padded)))
    (seq 0 (length padded / 64)) init.

Definition digest (msg : list Z) : list Z :=
  let '(State a b c d) := digest_state msg in
  bytes_of_word a ++ bytes_of_word b ++ bytes_of_word c ++ bytes_of_word d.

Definition hexdigit (n : Z) : ascii :=
  match n mod 16 with
  | 0 => "0" | 1 => "1" | 2 => "2" | 3 => "3" | 4 => "4" | 5 => "5"
  | 6 => "6" | 7 => "7" | 8 => "8" | 9 => "9" | 10 => "a" | 11 => "b"
  | 12 => "c" | 13 => "d" | 14 => "e" | _ => "f"
  end%char.

Definition hex_of_byte (b : Z) : string :=
  String (hexdigit (b / 16)) (String (hexdigit b) EmptyString).

Definition hex_of_bytes (bs : list Z) : string :=
  fold_right (fun b acc => hex_of_byte b +:+ acc) EmptyString bs.

Definition hexdigest (msg : list Z) : string := hex_of_bytes (digest msg).

End MD5.

(** [str.encode()]: UTF-8.  A Python [str] is modelled by a [string]
    whose characters are the code points below 256; a code point below
    128 is one byte, the others are two. *)
Definition encode (s : string) : list Z :=
  flat_map
    (fun ch : ascii =>
       let cp := Z.of_N (N_of_ascii ch) in
       if cp <? 128 then [cp]
       else [Z.lor 0xC0 (Z.shiftr cp 6); Z.lor 0x80 (Z.land cp 0x3F)])
    (list_ascii_of_string s).

(** ** mongoengine's EmbeddedDocumentList

    [filter] keeps the embedded documents that match every keyword
    argument it is given (all of them when there is none) and returns
    them as a new list bound to the same owner field.  A keyword argument
    [field=value] matches a document when the value of the field equals
    [value]; [field_matches] decides that for one document type.
    [delete()] on the result calls [list.remove(item)] on the owner's list
    for each of its items, and [list.remove] drops the first element equal
    to [item]; nothing is saved by it.  [save()] on an embedded list saves
    the document that owns the list. *)
Section EmbeddedDocumentList.
Context {A K : Type} `{EqDecision A}.
Variable field_matches : A → K → bool.

Definition match_all (doc : A) (kwargs : list K) : bool :=
  forallb (field_matches doc) kwargs.

Definition only_matches (docs : list A) (kwargs : list K) : list A :=
  match kwargs with
  | [] => docs
  | _ => filter (λ doc, match_all doc kwargs = true) docs
  end.

Fixpoint list_remove (item : A) (l : list A) : list A :=
  match l with
  | [] => []
  | x :: l' => if decide (item = x) then l' else x :: list_remove item l'
  end.

Definition list_delete (values owner : list A) : list A :=
  fold_left (λ l item, list_remove item l) values owner.
End EmbeddedDocumentList.

(** ** Documents *)

(** [bson.objectid.ObjectId]. *)
Definition ObjectId := N.
Bind Scope N_scope with ObjectId.

(** The value a method hands back to its caller: a method body with no
    [return] statement yields [None]. *)
Inductive PyValue :=
| PyNone
| PyBool (b : bool).

(** The values the [to_dict] methods put in a dictionary. *)
Inductive DictValue :=
| DBool (b : bool)
| DInt (n : Z)
| DStr (s : string).

Module IStream.
(** Modelled from the spec: the catalog stream entity of
    [pyfastocloud_models.stream.entry], which the subscriber only holds
    by reference.  A document is its id and the rest of its fields; two
    documents are equal when their ids are. *)
Record t := mk { id : ObjectId; fields : string }.
End IStream.

Module Device.
Module Status.
Inductive t := NOT_ACTIVE | ACTIVE | BANNED.
Definition value (s : t) : Z :=
  match s with NOT_ACTIVE => 0 | ACTIVE => 1 | BANNED => 2 end.

Definition name (s : t) : string :=
  match s with
  | NOT_ACTIVE => "NOT_ACTIVE" | ACTIVE => "ACTIVE" | BANNED => "BANNED"
  end.

(** The members, in the order of the class body. *)
Definition members : list t := [NOT_ACTIVE; ACTIVE; BANNED].

(** [cls(n)]: the member whose value is [n]; [None] stands for the
    [ValueError] of an integer that is no member's value. *)
Definition of_int (n : Z) : option t :=
  List.find (λ c, value c =? n) members.

Definition choices : list (t * string) :=
  map (λ choice, (choice, name choice)) members.

(** The argument of [coerce]: a member of the class, or anything else,
    which [int(item)] turns into an integer. *)
Inductive item := Member (s : t) | Int (n : Z).

Definition coerce (i : item) : option t :=
  match i with
  | Member s => Some s
  | Int n => of_int n
  end.
End Status.

Definition DEFAULT_DEVICE_NAME : string := "Device".
Definition MIN_DEVICE_NAME_LENGTH : Z := 3.
Definition MAX_DEVICE_NAME_LENGTH : Z := 32.

Record t := mk {
  id : ObjectId;
  created_date : Z;
  status : Z;
  name : string
}.

#[global] Instance eq_dec : EqDecision t.
Proof. solve_decision. Defined.

(** Keyword arguments of [devices.filter]. *)
Inductive kwarg := id_is (v : ObjectId).

Definition field_matches (doc : t) (kw : kwarg) : bool :=
  match kw with id_is v => bool_decide (id doc = v) end.

Definition ID_FIELD : string := "id".
Definition NAME_FIELD : string := "name".
Definition STATUS_FIELD : string := "status".
Definition CREATED_DATE_FIELD : string := "created_date".

Section Dict.
(** [str] of an [ObjectId] belongs to [bson], [date_to_utc_msec] to
    [pyfastocloud_models.utils.utils]: both are parameters. *)
Variable str : ObjectId → string.
Variable date_to_utc_msec : Z → Z.

Definition get_id (d : t) : string := str (id d).

Definition to_dict (d : t) : gmap string DictValue :=
  <[ID_FIELD := DStr (get_id d)]>
    (<[NAME_FIELD := DStr (name d)]>
       (<[STATUS_FIELD := DInt (status d)]>
          (<[CREATED_DATE_FIELD := DInt (date_to_utc_msec (created_date d))]>
             ∅))).
End Dict.
End Device.

Module UserStream.
Record t := mk {
  sid : ObjectId;
  favorite : bool;
  private : bool;
  recent : Z;
  interruption_time : Z
}.

#[global] Instance eq_dec : EqDecision t.
Proof. solve_decision. Defined.

(** [UserStream(sid=oid)]: every other field takes its default. *)
Definition new (oid : ObjectId) : t := mk oid false false 0 0.

Definition set_private (u : t) (b : bool) : t :=
  mk (sid u) (favorite u) b (recent u) (interruption_time u).

(** Keyword arguments of [streams.filter].  [sid=] is given a stream
    document, which equals the referenced document when the ids are the
    same and is passed here as that id, or [None], which no reference
    equals. *)
Inductive kwarg :=
| sid_is (v : option ObjectId)
| private_is (v : bool).

Definition field_matches (doc : t) (kw : kwarg) : bool :=
  match kw with
  | sid_is (Some ref) => bool_decide (sid doc = ref)
  | sid_is None => false
  | private_is v => bool_decide (private doc = v)
  end.

Definition FAVORITE_FIELD : string := "favorite".
Definition PRIVATE_FIELD : string := "private".
Definition RECENT_FIELD : string := "recent".

Section Dict.
(** [str] of an [ObjectId], [date_to_utc_msec] and the [to_dict] and
    [to_front_dict] methods of the referenced stream are parameters. *)
Variable str : ObjectId → string.
Variable date_to_utc_msec : Z → Z.
Variable IStream_to_dict : ObjectId → gmap string DictValue.
Variable IStream_to_front_dict : ObjectId → gmap string DictValue.

Definition get_id (u : t) : string := str (sid u).

Definition to_dict (u : t) : gmap string DictValue :=
  let res := IStream_to_dict (sid u) in
  let res := <[FAVORITE_FIELD := DBool (favorite u)]> res in
  let res := <[PRIVATE_FIELD := DBool (private u)]> res in
  let res := <[RECENT_FIELD := DInt (date_to_utc_msec (recent u))]> res in
  res.

Definition to_front_dict (u : t) : gmap string DictValue :=
  let res := IStream_to_front_dict (sid u) in
  let res := <[FAVORITE_FIELD := DBool (favorite u)]> res in
  let res := <[PRIVATE_FIELD := DBool (private u)]> res in
  let res := <[RECENT_FIELD := DInt (date_to_utc_msec (recent u))]> res in
  res.
End Dict.
End UserStream.

Module Subscriber.
Module Status.
Inductive t := NOT_ACTIVE | ACTIVE | DELETED.
Definition value (s : t) : Z :=
  match s with NOT_ACTIVE => 0 | ACTIVE => 1 | DELETED => 2 end.

Definition name (s : t) : string :=
  match s with
  | NOT_ACTIVE => "NOT_ACTIVE" | ACTIVE => "ACTIVE" | DELETED => "DELETED"
  end.

Definition members : list t := [NOT_ACTIVE; ACTIVE; DELETED].

(** [cls(n)], with [None] for the [ValueError]. *)
Definition of_int (n : Z) : option t :=
  List.find (λ c, value c =? n) members.

Definition choices : list (t * string) :=
  map (λ choice, (choice, name choice)) members.

Inductive item := Member (s : t) | Int (n : Z).

Definition coerce (i : item) : option t :=
  match i with
  | Member s => Some s
  | Int n => of_int n
  end.
End Status.

Definition SUBSCRIBER_HASH_LENGTH : Z := 32.

(** [datetime(2100, 1, 1)], in milliseconds since the epoch. *)
Definition MAX_DATE : Z := 4102444800000.

Record t := mk {
  id : ObjectId;
  email : string;
  first_name : string;
  last_name : string;
  password : string;
  created_date : Z;
  exp_date : Z;
  status : Z;
  country : string;
  language : string;
  servers : list ObjectId;
  devices : list Device.t;
  max_devices_count : Z;
  streams : list UserStream.t
}.

Definition set_devices (s : t) (ds : list Device.t) : t :=
  mk (id s) (email s) (first_name s) (last_name s) (password s)
     (created_date s) (exp_date s) (status s) (country s) (language s)
     (servers s) ds (max_devices_count s) (streams s).

Definition set_streams (s : t) (us : list UserStream.t) : t :=
  mk (id s) (email s) (first_name s) (last_name s) (password s)
     (created_date s) (exp_date s) (status s) (country s) (language s)
     (servers s) (devices s) (max_devices_count s) us.

Definition set_servers (s : t) (l : list ObjectId) : t :=
  mk (id s) (email s) (first_name s) (last_name s) (password s)
     (created_date s) (exp_date s) (status s) (country s) (language s)
     l (devices s) (max_devices_count s) (streams s).

Definition set_status (s : t) (v : Z) : t :=
  mk (id s) (email s) (first_name s) (last_name s) (password s)
     (created_date s) (exp_date s) v (country s) (language s)
     (servers s) (devices s) (max_devices_count s) (streams s).

(** *** The store and the method monad *)

(** The two ways a method asks for persistence: [self.save()], and
    [save()] on one of the embedded lists, which mongoengine forwards to
    the document that owns the list.  Either way the document as it
    stands in memory at that moment is what gets written. *)
Inductive SaveCall :=
| Document_save (written : t)
| EmbeddedDocumentList_save (field : string) (written : t).

Record Env := mkEnv {
  self : t;
  subscribers : gmap ObjectId t;
  istreams : gmap ObjectId string;
  journal : list SaveCall
}.

Definition M (A : Type) : Type := Env → A * Env.

#[global] Instance M_ret : MRet M := λ A x e, (x, e).
#[global] Instance M_bind : MBind M :=
  λ A B f m e, let '(x, e') := m e in f x e'.

Definition exec {A} (m : M A) (e : Env) : Env := snd (m e).
Definition result {A} (m : M A) (e : Env) : A := fst (m e).

Definition get_self : M t := λ e, (self e, e).

Definition put_self (s : t) : M unit :=
  λ e, (tt, mkEnv s (subscribers e) (istreams e) (journal e)).

Definition write (call : SaveCall) : M unit :=
  λ e, (tt, mkEnv (self e) (<[id (self e) := self e]> (subscribers e))
                  (istreams e) (journal e ++ [call])).

(** [self.save()] *)
Definition save : M unit := s ← get_self; write (Document_save s).

(** [self.<field>.save()] *)
Definition list_save (field : string) : M unit :=
  s ← get_self; write (EmbeddedDocumentList_save field s).

(** [IStream.objects(id=sid).first()]: the catalog document with that
    id, or [None]. *)
Definition IStream_objects_first (sid : ObjectId) : M (option IStream.t) :=
  λ e, (IStream.mk sid <$> istreams e !! sid, e).

(** [ref.delete()] on a referenced catalog document. *)
Definition IStream_delete (ref : ObjectId) : M unit :=
  λ e, (tt, mkEnv (self e) (subscribers e) (delete ref (istreams e))
                  (journal e)).

Fixpoint for_each {A} (l : list A) (body : A → M unit) : M unit :=
  match l with
  | [] => mret tt
  | x :: l' => body x;; for_each l' body
  end.

(** [found.delete()] where [found] came from [self.devices.filter] or
    [self.streams.filter]. *)
Definition devices_delete (found : list Device.t) : M unit :=
  s ← get_self; put_self (set_devices s (list_delete found (devices s))).

Definition streams_delete (found : list UserStream.t) : M unit :=
  s ← get_self; put_self (set_streams s (list_delete found (streams s))).

(** *** Device registry *)

Definition add_server (server : ObjectId) : M PyValue :=
  s ← get_self;
  put_self (set_servers s (servers s ++ [server]));;
  save;;
  mret PyNone.

Definition add_device (device : Device.t) : M PyValue :=
  s ← get_self;
  if bool_decide (Z.of_nat (length (devices s)) < max_devices_count s) then
    put_self (set_devices s (devices s ++ [device]));;
    save;;
    mret PyNone
  else mret PyNone.

Definition remove_device (sid : ObjectId) : M PyValue :=
  s ← get_self;
  let devices := only_matches Device.field_matches (devices s)
                              [Device.id_is sid] in
  devices_delete devices;;
  list_save "devices";;
  mret PyNone.

(** *** Playlist *)
Section Playlist.
(** [str] of an [ObjectId], and the two manifest generators of the
    referenced stream, [generate_playlist] and
    [generate_device_playlist] of [IStream]: they belong to [bson]
    and to the stream document and are parameters here. *)
Variable str : ObjectId → string.
Variable IStream_generate_playlist : ObjectId → bool → string.
Variable IStream_generate_device_playlist :
  ObjectId → string → string → string → string → bool → string.

Definition generate_playlist (s : t) (did lb_server_host_and_port : string)
  : string :=
  let result := String "#" (String "E" (String "X" (String "T"
               (String "M" (String "3" (String "U"
               (String (ascii_of_nat 10) EmptyString))))))) in
  let sid := str (id s) in
  fold_left
    (λ result stream,
       if UserStream.private stream then
         result +:+ IStream_generate_playlist (UserStream.sid stream) false
       else
         result +:+ IStream_generate_device_playlist
                      (UserStream.sid stream) sid (password s) did
                      lb_server_host_and_port false)
    (streams s) result.
End Playlist.

Definition all_streams (s : t) : list UserStream.t := streams s.

(** *** Stream associations *)

Definition add_official_stream (stream : UserStream.t) : M PyValue :=
  s ← get_self;
  let db_stream := UserStream.sid stream in
  let found_streams := only_matches UserStream.field_matches (streams s)
                         [UserStream.sid_is (Some db_stream)] in
  match found_streams with
  | [] =>
      put_self (set_streams s (streams s ++ [stream]));;
      save;;
      mret PyNone
  | _ => mret PyNone
  end.

Definition add_official_stream_by_id (oid : ObjectId) : M PyValue :=
  let user_stream := UserStream.new oid in
  add_official_stream user_stream.

Definition add_own_stream (stream : IStream.t) : M PyValue :=
  s ← get_self;
  let user_stream := UserStream.new (IStream.id stream) in
  let user_stream := UserStream.set_private user_stream true in
  let found_streams := only_matches UserStream.field_matches (streams s)
                         [UserStream.sid_is (Some (IStream.id stream))] in
  match found_streams with
  | [] =>
      put_self (set_streams s (streams s ++ [user_stream]));;
      save;;
      mret PyNone
  | _ => mret PyNone
  end.

(** [stream] is [None] when [remove_official_stream_by_id] found no
    catalog document. *)
Definition remove_official_stream (stream : option IStream.t) : M PyValue :=
  s ← get_self;
  let streams := only_matches UserStream.field_matches (streams s)
                   [UserStream.sid_is (IStream.id <$> stream)] in
  streams_delete streams;;
  list_save "streams";;
  mret PyNone.

Definition remove_official_stream_by_id (sid : ObjectId) : M PyValue :=
  original_stream ← IStream_objects_first sid;
  remove_official_stream original_stream.

Definition remove_own_stream_by_id (sid : ObjectId) : M PyValue :=
  stream ← IStream_objects_first sid;
  s ← get_self;
  let streams := only_matches UserStream.field_matches (streams s)
                   [UserStream.sid_is (IStream.id <$> stream);
                    UserStream.private_is true] in
  for_each streams (λ stream, IStream_delete (UserStream.sid stream));;
  streams_delete streams;;
  list_save "streams";;
  mret PyNone.

Definition remove_all_own_streams : M PyValue :=
  s ← get_self;
  let streams := only_matches UserStream.field_matches (streams s)
                   [UserStream.private_is true] in
  for_each streams (λ stream, IStream_delete (UserStream.sid stream));;
  streams_delete streams;;
  list_save "streams";;
  mret PyNone.

Definition official_streams (s : t) : list UserStream.t :=
  only_matches UserStream.field_matches (streams s)
               [UserStream.private_is false].

Definition own_streams (s : t) : list UserStream.t :=
  only_matches UserStream.field_matches (streams s)
               [UserStream.private_is true].

(** *** Soft delete *)

Definition delete : M PyValue :=
  remove_all_own_streams;;
  s ← get_self;
  put_self (set_status s (Status.value Status.DELETED));;
  mret PyNone.

(** *** Password hashing *)

Definition make_md5_hash_from_password (password : string) : string :=
  MD5.hexdigest (encode password).

Definition generate_password_hash (password : string) : string :=
  make_md5_hash_from_password password.

Definition check_password_hash (hash password : string) : bool :=
  bool_decide (hash = generate_password_hash password).

(** *** Factory *)
Section Factory.
(** [pk] is the id of the new document, [now] the reading of
    [datetime.now] that the default of [created_date] takes, and
    [DEFAULT_DEVICES_COUNT] a constant of [pyfastocloud_models.constants];
    [exp_date] is [MAX_DATE] when the caller gives none. *)
Variable pk : ObjectId.
Variable now : Z.
Variable DEFAULT_DEVICES_COUNT : Z.

Definition make_subscriber (email first_name last_name password country
    language : string) (exp_date : Z) : t :=
  mk pk email first_name last_name (make_md5_hash_from_password password)
     now exp_date (Status.value Status.NOT_ACTIVE) country language
     [] [] DEFAULT_DEVICES_COUNT [].
End Factory.
End Subscriber.

(** * Vocabulary of the statements *)

Import Subscriber.

(** The manifest marker line. *)
Definition EXTM3U : string :=
  String "#" (String "E" (String "X" (String "T" (String "M" (String "3"
  (String "U" (String (ascii_of_nat 10) EmptyString))))))).

(** The entries of a manifest, one after the other. *)
Definition join (entries : list string) : string :=
  fold_right String.append EmptyString entries.

(** The entry the specification asks for one association, given [str]
    and the two generators. *)
Definition manifest_entry (str : ObjectId → string)
    (self_entry : ObjectId → bool → string)
    (device_entry :
       ObjectId → string → string → string → string → bool → string)
    (s : Subscriber.t) (did lb : string) (stream : UserStream.t) : string :=
  if UserStream.private stream then
    self_entry (UserStream.sid stream) false
  else
    device_entry (UserStream.sid stream) (str (Subscriber.id s))
                 (Subscriber.password s) did lb false.

(** The catalog after the loop [for stream in found: stream.sid.delete()]. *)
Definition purge (found : list UserStream.t) (catalog : gmap ObjectId string)
  : gmap ObjectId string :=
  fold_left (λ m stream, base.delete (UserStream.sid stream) m) found catalog.

(** The associations of a collection that reference [ref]. *)
Definition associations (ref : ObjectId) (l : list UserStream.t)
  : list UserStream.t :=
  filter (λ u, UserStream.sid u = ref) l.

(** The associations [remove_own_stream_by_id] looks for. *)
Definition owned_by_ref (ref : ObjectId) (u : UserStream.t) : Prop :=
  UserStream.sid u = ref ∧ UserStream.private u = true.

#[local] Instance owned_by_ref_dec ref u : Decision (owned_by_ref ref u).
Proof. unfold owned_by_ref. apply _. Defined.

(** The characters [hexdigest] may produce. *)
Definition is_lower_hex (ch : ascii) : bool :=
  let n := N_of_ascii ch in
  ((48 <=? n) && (n <=? 57) || (97 <=? n) && (n <=? 102))%N.


(** * Sample documents

    The documents below satisfy the field constraints of the schema
    (string lengths, the 32-character password hash), which the store
    validates on every save. *)

Definition alice : Subscriber.t :=
  Subscriber.mk 1 "alice@example.com" "Alice" "Liddell"
    "5ebe2294ecd0e0f08eab7690d2a6ee69" 0 4102444800000
    (Status.value Status.ACTIVE) "GB" "en" [] [] 2 [].

Definition tv : Device.t := Device.mk 10 0 0 "Living room".
Definition phone : Device.t := Device.mk 11 0 0 "Phone".
Definition tablet : Device.t := Device.mk 12 0 0 "Tablet".

(** A catalog with an official stream, 7, and a personal one, 8. *)
Definition catalog : gmap ObjectId string :=
  {[ 7%N := "News"%string; 8%N := "Home video"%string ]}.

(** A store that holds [s] as it is in memory, and one that does not hold
    it yet. *)
Definition stored (s : Subscriber.t) : Env :=
  mkEnv s {[ Subscriber.id s := s ]} catalog [].


(** A subscriber whose quota was lowered to zero after a device had been
    registered. *)
Definition crowded : Subscriber.t :=
  Subscriber.mk 2 "bob@example.com" "Bob" "Stone"
    "5ebe2294ecd0e0f08eab7690d2a6ee69" 0 4102444800000
    (Status.value Status.ACTIVE) "GB" "en" [] [tv] 0 [].

Definition news : UserStream.t := UserStream.mk 7 false false 0 0.
Definition home_video : UserStream.t := UserStream.mk 8 false true 0 0.

(** A subscriber of the official stream 7 who owns the personal stream 8. *)
Definition viewer : Subscriber.t :=
  Subscriber.mk 3 "carol@example.com" "Carol" "Reed"
    "5ebe2294ecd0e0f08eab7690d2a6ee69" 0 4102444800000
    (Status.value Status.ACTIVE) "GB" "en" [40%N] [tv] 2 [news; home_video].


(** Two distinct alphanumeric passwords with the same MD5 digest. *)
Definition collision_a : string :=
  "TEXTCOLLBYfGiJUETHQ4hAcKSMd5zYpgqf1YRDhkmxHkhPWptrkoyz28wnI9V0aHeAuaKnak".
Definition collision_b : string :=
  "TEXTCOLLBYfGiJUETHQ4hEcKSMd5zYpgqf1YRDhkmxHkhPWptrkoyz28wnI9V0aHeAuaKnak".

(** * Properties *)

(** ** The embedded lists *)
Section EmbeddedDocumentList_facts.
Context {A : Type} `{EqDecision A}.
Implicit Types (l pre : list A) (x : A).

Lemma list_remove_skips pre x l :
  x ∉ pre → list_remove x (pre ++ x :: l) = pre ++ l.
Proof.
  induction pre as [|y pre IH]; intros Hx; simpl.
  - by rewrite decide_True.
  - apply not_elem_of_cons in Hx as [Hxy Hpre].
    rewrite decide_False by done. by rewrite IH.
Qed.

(** Removing, one [list.remove] at a time, the elements that a filter
    selected leaves the elements the filter rejected, in their order. *)
Lemma list_delete_selected (P : A → Prop) `{∀ x, Decision (P x)} pre l :
  Forall (λ x, ¬ P x) pre →
  list_delete (filter P l) (pre ++ l) = pre ++ filter (λ x, ¬ P x) l.
Proof.
  revert pre. induction l as [|x l IH]; intros pre Hpre.
  - done.
  - rewrite !filter_cons. destruct (decide (P x)) as [HP|HP].
    + rewrite decide_False by tauto. unfold list_delete. simpl.
      rewrite list_remove_skips.
      * apply IH, Hpre.
      * intros Hin. rewrite Forall_forall in Hpre. by apply (Hpre x).
    + rewrite decide_True by done.
      rewrite (cons_middle x pre l), app_assoc. rewrite IH.
      * by rewrite <- app_assoc.
      * apply Forall_app. split; [done|]. by apply Forall_singleton.
Qed.

Lemma list_delete_filter (P : A → Prop) `{∀ x, Decision (P x)} l :
  list_delete (filter P l) l = filter (λ x, ¬ P x) l.
Proof. apply (list_delete_selected P [] l). constructor. Qed.

(** The owner list gets shorter by one for each selected item: every
    [list.remove] issued by [delete()] finds its element. *)
Lemma list_delete_removes_present (P : A → Prop) `{∀ x, Decision (P x)} l :
  (length (list_delete (filter P l) l) + length (filter P l) = length l)%nat.
Proof.
  rewrite list_delete_filter.
  induction l as [|x l IH]; [done|].
  rewrite !filter_cons. destruct (decide (P x)).
  - rewrite decide_False by tauto. simpl. lia.
  - rewrite decide_True by done. simpl. lia.
Qed.
End EmbeddedDocumentList_facts.

(** ** Playlist generation *)

Lemma append_assoc (a b c : string) : (a +:+ b) +:+ c = a +:+ (b +:+ c).
Proof.
  induction a as [|ch a IH]; [reflexivity|]. exact (f_equal (String ch) IH).
Qed.

Lemma append_empty_r (a : string) : a +:+ EmptyString = a.
Proof.
  induction a as [|ch a IH]; [reflexivity|]. exact (f_equal (String ch) IH).
Qed.

Lemma fold_left_append {A} (g : string → A → string) (f : A → string)
    (l : list A) (init : string) :
  (∀ acc x, g acc x = acc +:+ f x) →
  fold_left g l init = init +:+ join (map f l).
Proof.
  intros Hg. revert init. induction l as [|x l IH]; intros init; simpl.
  - by rewrite append_empty_r.
  - rewrite IH, Hg. apply append_assoc.
Qed.

Section Playlist_facts.
Variable str : ObjectId → string.
Variable self_entry : ObjectId → bool → string.
Variable device_entry :
  ObjectId → string → string → string → string → bool → string.

Lemma generate_playlist_join s did lb :
  Subscriber.generate_playlist str self_entry device_entry s did lb
  = EXTM3U
    +:+ join (map (manifest_entry str self_entry device_entry s did lb)
                  (Subscriber.streams s)).
Proof.
  unfold Subscriber.generate_playlist. fold EXTM3U.
  apply fold_left_append. intros acc stream. unfold manifest_entry.
  by destruct (UserStream.private stream).
Qed.

Lemma prefix_append (a b : string) : String.prefix a (a +:+ b) = true.
Proof.
  induction a as [|ch a IH]; [by destruct b|].
  change (String.prefix (String ch a) (String ch (a +:+ b)) = true).
  simpl. by destruct (ascii_dec ch ch).
Qed.
End Playlist_facts.

(** The manifest scenario: an official stream then a personal one give
    two entries, the first from the device-bound generator, the second
    from the stream's own generator. *)
Example generate_playlist_scenario :
  Subscriber.generate_playlist
    (λ _, "sub3"%string) (λ _ _, "[own]"%string)
    (λ _ sid hash did lb _,
       "[" +:+ sid +:+ "|" +:+ hash +:+ "|" +:+ did +:+ "|" +:+ lb +:+ "]")
    viewer "dev1" "lb:8000"
  = EXTM3U
    +:+ "[sub3|5ebe2294ecd0e0f08eab7690d2a6ee69|dev1|lb:8000]"
    +:+ "[own]".
Proof. vm_compute. reflexivity. Qed.

Section Playlist_entries.
Variable str : ObjectId → string.
Variable self_entry : ObjectId → bool → string.
Variable device_entry :
  ObjectId → string → string → string → string → bool → string.

(** C1: for every subscriber, device id and load-balancer address the
    playlist is the marker line [#EXTM3U] followed by one entry per
    element of [streams], in the order of the collection; the entry of a
    private association comes from the stream's own generator, the entry
    of any other association from the device-bound generator, called
    with the subscriber's id, the subscriber's password hash, the device
    id and the load-balancer address. *)
Theorem generate_playlist_entries (s : Subscriber.t) (did lb : string) :
  String.prefix EXTM3U
    (Subscriber.generate_playlist str self_entry device_entry s did lb)
  = true
  ∧ ∃ entries : list string,
      Subscriber.generate_playlist str self_entry device_entry s did lb
      = EXTM3U +:+ join entries
      ∧ length entries = length (Subscriber.streams s)
      ∧ Forall2
          (λ stream entry,
             entry =
               if UserStream.private stream then
                 self_entry (UserStream.sid stream) false
               else
                 device_entry (UserStream.sid stream)
                   (str (Subscriber.id s)) (Subscriber.password s)
                   did lb false)
          (Subscriber.streams s) entries.
Proof.
  rewrite generate_playlist_join.
  split; [apply prefix_append|].
  exists (map (manifest_entry str self_entry device_entry s did lb)
              (Subscriber.streams s)).
  split; [reflexivity|]. split; [apply length_map|].
  induction (Subscriber.streams s) as [|stream l IH]; constructor; done.
Qed.
End Playlist_entries.

(** ** Running the methods *)

(** Unfolds the monadic plumbing of a method applied to a store. *)
Ltac run_method :=
  repeat (progress unfold mbind, M_bind, mret, M_ret, get_self, put_self,
            save, list_save, write, devices_delete, streams_delete,
            IStream_objects_first);
  cbn [self subscribers istreams journal].

Lemma only_matches_delete {A K} `{EqDecision A} (fm : A → K → bool)
    (kw : K) (kws : list K) (l : list A) :
  list_delete (only_matches fm l (kw :: kws)) l
  = filter (λ doc, match_all fm doc (kw :: kws) = false) l.
Proof.
  unfold only_matches. rewrite list_delete_filter.
  apply list_filter_iff. intros doc. by destruct (match_all _ _ _).
Qed.

Lemma for_each_delete_run (found : list UserStream.t) (e : Env) :
  for_each found (λ stream, IStream_delete (UserStream.sid stream)) e
  = (tt, mkEnv (self e) (subscribers e) (purge found (istreams e))
               (journal e)).
Proof.
  revert e. induction found as [|u found IH]; intros e.
  - by destruct e.
  - simpl. unfold mbind, M_bind. simpl. by rewrite IH.
Qed.


Lemma add_device_run (device : Device.t) (e : Env) :
  add_device device e =
    if decide (Z.of_nat (length (devices (self e))) < max_devices_count (self e))
    then
      let s' := set_devices (self e) (devices (self e) ++ [device]) in
      (PyNone, mkEnv s' (<[id (self e) := s']> (subscribers e)) (istreams e)
                     (journal e ++ [Document_save s']))
    else (PyNone, e).
Proof.
  unfold add_device. run_method. case_bool_decide.
  - by rewrite decide_True.
  - by rewrite decide_False.
Qed.

Lemma remove_device_run (sid : ObjectId) (e : Env) :
  remove_device sid e =
    let s' := set_devices (self e)
                (filter (λ d, Device.id d ≠ sid) (devices (self e))) in
    (PyNone, mkEnv s' (<[id (self e) := s']> (subscribers e)) (istreams e)
                   (journal e ++ [EmbeddedDocumentList_save "devices" s'])).
Proof.
  unfold remove_device. run_method. rewrite only_matches_delete.
  rewrite (list_filter_iff _ (λ d, Device.id d ≠ sid)); [done|].
  intros d. unfold match_all. simpl. rewrite andb_true_r.
  case_bool_decide; naive_solver.
Qed.

Lemma only_matches_sid (ref : ObjectId) (l : list UserStream.t) :
  only_matches UserStream.field_matches l [UserStream.sid_is (Some ref)]
  = associations ref l.
Proof.
  unfold only_matches, associations. apply list_filter_iff. intros u.
  unfold match_all. simpl. rewrite andb_true_r. by rewrite bool_decide_eq_true.
Qed.

Lemma only_matches_sid_None (kws : list UserStream.kwarg)
    (l : list UserStream.t) :
  only_matches UserStream.field_matches l (UserStream.sid_is None :: kws) = [].
Proof.
  unfold only_matches. induction l as [|u l IH]; [done|].
  by rewrite filter_cons_False.
Qed.

Lemma only_matches_private (b : bool) (l : list UserStream.t) :
  only_matches UserStream.field_matches l [UserStream.private_is b]
  = filter (λ u, UserStream.private u = b) l.
Proof.
  unfold only_matches. apply list_filter_iff. intros u.
  unfold match_all. simpl. rewrite andb_true_r. by rewrite bool_decide_eq_true.
Qed.

Lemma only_matches_owned (ref : ObjectId) (l : list UserStream.t) :
  only_matches UserStream.field_matches l
    [UserStream.sid_is (Some ref); UserStream.private_is true]
  = filter (owned_by_ref ref) l.
Proof.
  unfold only_matches. apply list_filter_iff. intros u.
  unfold match_all, owned_by_ref. simpl.
  rewrite andb_true_r, andb_true_iff. by rewrite !bool_decide_eq_true.
Qed.

Lemma add_official_stream_run (stream : UserStream.t) (e : Env) :
  add_official_stream stream e =
    match associations (UserStream.sid stream) (streams (self e)) with
    | [] =>
        let s' := set_streams (self e) (streams (self e) ++ [stream]) in
        (PyNone, mkEnv s' (<[id (self e) := s']> (subscribers e)) (istreams e)
                       (journal e ++ [Document_save s']))
    | _ => (PyNone, e)
    end.
Proof.
  unfold add_official_stream. run_method. rewrite only_matches_sid.
  by destruct (associations _ _).
Qed.

Lemma add_own_stream_run (stream : IStream.t) (e : Env) :
  add_own_stream stream e =
    match associations (IStream.id stream) (streams (self e)) with
    | [] =>
        let s' := set_streams (self e)
                    (streams (self e)
                     ++ [UserStream.mk (IStream.id stream) false true 0 0]) in
        (PyNone, mkEnv s' (<[id (self e) := s']> (subscribers e)) (istreams e)
                       (journal e ++ [Document_save s']))
    | _ => (PyNone, e)
    end.
Proof.
  unfold add_own_stream. run_method. rewrite only_matches_sid.
  by destruct (associations _ _).
Qed.

Lemma remove_official_stream_run (stream : IStream.t) (e : Env) :
  remove_official_stream (Some stream) e =
    let s' := set_streams (self e)
                (filter (λ u, UserStream.sid u ≠ IStream.id stream)
                        (streams (self e))) in
    (PyNone, mkEnv s' (<[id (self e) := s']> (subscribers e)) (istreams e)
                   (journal e ++ [EmbeddedDocumentList_save "streams" s'])).
Proof.
  unfold remove_official_stream. run_method. cbn [fmap option_fmap option_map].
  rewrite only_matches_sid. unfold associations. by rewrite list_delete_filter.
Qed.

Lemma remove_own_stream_by_id_run (sid : ObjectId) (e : Env) :
  remove_own_stream_by_id sid e =
    let found := match istreams e !! sid with
                 | Some _ => filter (owned_by_ref sid) (streams (self e))
                 | None => []
                 end in
    let s' := set_streams (self e) (list_delete found (streams (self e))) in
    (PyNone, mkEnv s' (<[id (self e) := s']> (subscribers e))
                   (purge found (istreams e))
                   (journal e ++ [EmbeddedDocumentList_save "streams" s'])).
Proof.
  unfold remove_own_stream_by_id. run_method.
  destruct (istreams e !! sid) as [body|]; cbn [fmap option_fmap option_map].
  - cbn [IStream.id]. rewrite only_matches_owned.
    rewrite for_each_delete_run. by run_method.
  - rewrite only_matches_sid_None. by destruct e.
Qed.

Lemma remove_all_own_streams_run (e : Env) :
  remove_all_own_streams e =
    let found := filter (λ u, UserStream.private u = true) (streams (self e)) in
    let s' := set_streams (self e)
                (filter (λ u, UserStream.private u = false) (streams (self e)))
    in
    (PyNone, mkEnv s' (<[id (self e) := s']> (subscribers e))
                   (purge found (istreams e))
                   (journal e ++ [EmbeddedDocumentList_save "streams" s'])).
Proof.
  unfold remove_all_own_streams. run_method. rewrite only_matches_private.
  rewrite for_each_delete_run. run_method. rewrite list_delete_filter.
  rewrite (list_filter_iff _ (λ u, UserStream.private u = false)); [done|].
  intros u. by destruct (UserStream.private u).
Qed.

Lemma delete_run (e : Env) :
  Subscriber.delete e =
    let found := filter (λ u, UserStream.private u = true) (streams (self e)) in
    let s' := set_streams (self e)
                (filter (λ u, UserStream.private u = false) (streams (self e)))
    in
    (PyNone, mkEnv (set_status s' (Status.value Status.DELETED))
                   (<[id (self e) := s']> (subscribers e))
                   (purge found (istreams e))
                   (journal e ++ [EmbeddedDocumentList_save "streams" s'])).
Proof.
  unfold Subscriber.delete. run_method. rewrite remove_all_own_streams_run.
  by run_method.
Qed.

(** ** Device registry *)


Lemma set_streams_same (s : Subscriber.t) : set_streams s (streams s) = s.
Proof. by destruct s. Qed.

Lemma filter_keeps_all {A} (P : A → Prop) `{∀ x, Decision (P x)} (l : list A) :
  Forall P l → filter P l = l.
Proof.
  induction 1 as [|x l HP _ IH]; [done|]. by rewrite filter_cons_True, IH.
Qed.


Lemma app_singleton_neq {A} (l : list A) (x : A) : l ++ [x] ≠ l.
Proof.
  intros Heq. apply (f_equal length) in Heq. rewrite length_app in Heq.
  simpl in Heq. lia.
Qed.

(** The quota scenario: with room for two devices the first two are
    registered and the third is turned away. *)
Example add_device_scenario :
  devices (self (exec (add_device tv) (stored alice))) = [tv]
  ∧ devices (self (exec (add_device phone)
                    (exec (add_device tv) (stored alice)))) = [tv; phone]
  ∧ devices (self (exec (add_device tablet)
                    (exec (add_device phone)
                       (exec (add_device tv) (stored alice))))) = [tv; phone].
Proof. repeat split; reflexivity. Qed.

(** C2, as stated, fails: a device that is accepted is appended, yet the
    method hands back [None], not a boolean. *)
Lemma add_device_returns_no_boolean :
  devices (self (exec (add_device tv) (stored alice))) = [tv]
  ∧ ∀ b : bool, result (add_device tv) (stored alice) ≠ PyBool b.
Proof. split; [reflexivity|]. intros b. discriminate. Qed.

(** C2, amended: [add_device] appends the device and saves the subscriber
    exactly when the device count is below [max_devices_count], and leaves
    everything as it was otherwise; in both cases the method returns
    [None]. *)
Theorem add_device_quota (device : Device.t) (e : Env) :
  result (add_device device) e = PyNone
  ∧ (Z.of_nat (length (devices (self e))) < max_devices_count (self e)
     ↔ devices (self (exec (add_device device) e))
       = devices (self e) ++ [device])
  ∧ (Z.of_nat (length (devices (self e))) < max_devices_count (self e)
     ↔ journal (exec (add_device device) e)
       = journal e ++ [Document_save (self (exec (add_device device) e))])
  ∧ (Z.of_nat (length (devices (self e))) < max_devices_count (self e)
     → subscribers (exec (add_device device) e)
       = <[id (self e) := self (exec (add_device device) e)]> (subscribers e))
  ∧ (¬ Z.of_nat (length (devices (self e))) < max_devices_count (self e)
     → exec (add_device device) e = e).
Proof.
  unfold result, exec. rewrite add_device_run.
  destruct (decide (_ < _)) as [Hlt|Hge]; cbn.
  - repeat split; done.
  - repeat split; try done.
    + by intros ?%eq_sym%app_singleton_neq.
    + by intros ?%eq_sym%app_singleton_neq.
Qed.

(** C8, as stated for any starting state, fails: a subscriber that starts
    above its quota is still above it after [add_device]. *)
Lemma add_device_over_quota_start :
  ¬ (Z.of_nat (length (devices (self (exec (add_device phone)
                                         (stored crowded)))))
     ≤ max_devices_count (self (exec (add_device phone) (stored crowded)))).
Proof. vm_compute. intros H. by apply H. Qed.

(** C8, amended: [add_device] keeps the device count within
    [max_devices_count] for every subscriber that starts within it, and
    never changes the quota. *)
Theorem add_device_keeps_quota (device : Device.t) (e : Env) :
  Z.of_nat (length (devices (self e))) ≤ max_devices_count (self e) →
  Z.of_nat (length (devices (self (exec (add_device device) e))))
  ≤ max_devices_count (self (exec (add_device device) e))
  ∧ max_devices_count (self (exec (add_device device) e))
    = max_devices_count (self e).
Proof.
  intros Hle. unfold exec. rewrite add_device_run.
  destruct (decide (_ < _)) as [Hlt|Hge]; cbn; [|done].
  rewrite length_app. simpl. split; [lia|done].
Qed.

Lemma add_device_keeps_quota_witness :
  Z.of_nat (length (devices (self (exec (add_device tv) (stored alice)))))
  ≤ max_devices_count (self (exec (add_device tv) (stored alice)))
  ∧ max_devices_count (self (exec (add_device tv) (stored alice)))
    = max_devices_count (self (stored alice)).
Proof. apply (add_device_keeps_quota tv (stored alice)). simpl. lia. Defined.




(** ** Stream associations *)

Lemma associations_none (ref : ObjectId) (l : list UserStream.t) :
  associations ref l = [] ↔ ref ∉ map UserStream.sid l.
Proof.
  unfold associations. induction l as [|u l IH]; cbn [map].
  - split; [intros _; apply not_elem_of_nil|done].
  - rewrite filter_cons, not_elem_of_cons. case_decide as Hu.
    + split; [done|]. intros [Hne _]. by destruct Hne.
    + rewrite IH. split; [|tauto]. intros Hl. split; [|done].
      by intros ->.
Qed.

Lemma associations_unique (ref : ObjectId) (l : list UserStream.t) :
  NoDup (map UserStream.sid l) → (length (associations ref l) ≤ 1)%nat.
Proof.
  induction l as [|u l IH]; cbn [map]; [by intros _; simpl; lia|].
  intros [Hu Hl]%NoDup_cons. unfold associations. rewrite filter_cons.
  case_decide as Href.
  - subst ref. apply associations_none in Hu. unfold associations in Hu.
    rewrite Hu. simpl. lia.
  - by apply IH.
Qed.

Lemma associations_snoc (ref : ObjectId) (u : UserStream.t)
    (l : list UserStream.t) :
  UserStream.sid u = ref →
  associations ref (l ++ [u]) = associations ref l ++ [u].
Proof.
  intros Href. unfold associations. rewrite filter_app. f_equal.
  by rewrite filter_cons_True.
Qed.

Lemma unique_refs_snoc (u : UserStream.t) (l : list UserStream.t) :
  NoDup (map UserStream.sid l) →
  associations (UserStream.sid u) l = [] →
  NoDup (map UserStream.sid (l ++ [u])).
Proof.
  intros Hl Hnone%associations_none. rewrite map_app. apply NoDup_app.
  split; [done|]. split; [|apply NoDup_singleton].
  intros ref Hin ->%list_elem_of_singleton. done.
Qed.

(** One call of either add method on a collection with unique references:
    afterwards exactly one association references the stream, the
    references are still unique, and a further add for the same reference
    finds that association. *)
Lemma add_official_stream_once (stream : UserStream.t) (e : Env) :
  NoDup (map UserStream.sid (streams (self e))) →
  length (associations (UserStream.sid stream)
            (streams (self (exec (add_official_stream stream) e)))) = 1%nat
  ∧ NoDup (map UserStream.sid
             (streams (self (exec (add_official_stream stream) e)))).
Proof.
  intros Huniq. unfold exec. rewrite add_official_stream_run.
  destruct (associations (UserStream.sid stream) (streams (self e)))
    as [|u found] eqn:Hfound; cbn [snd self streams set_streams].
  - rewrite associations_snoc, Hfound by done. split; [done|].
    by apply unique_refs_snoc.
  - split; [|done].
    pose proof (associations_unique (UserStream.sid stream) _ Huniq) as Hle.
    rewrite Hfound in *. simpl in *. lia.
Qed.

Lemma add_own_stream_once (stream : IStream.t) (e : Env) :
  NoDup (map UserStream.sid (streams (self e))) →
  length (associations (IStream.id stream)
            (streams (self (exec (add_own_stream stream) e)))) = 1%nat
  ∧ NoDup (map UserStream.sid
             (streams (self (exec (add_own_stream stream) e)))).
Proof.
  intros Huniq. unfold exec. rewrite add_own_stream_run.
  destruct (associations (IStream.id stream) (streams (self e)))
    as [|u found] eqn:Hfound; cbn [snd self streams set_streams].
  - rewrite associations_snoc, Hfound by done. split; [done|].
    by apply unique_refs_snoc.
  - split; [|done].
    pose proof (associations_unique (IStream.id stream) _ Huniq) as Hle.
    rewrite Hfound in *. simpl in *. lia.
Qed.

Lemma unique_refs_filter (P : UserStream.t → Prop) `{∀ u, Decision (P u)}
    (l : list UserStream.t) :
  NoDup (map UserStream.sid l) → NoDup (map UserStream.sid (filter P l)).
Proof.
  induction l as [|u l IH]; [done|]. cbn [map].
  intros [Hu Hl]%NoDup_cons. rewrite filter_cons. case_decide; [|by apply IH].
  cbn [map]. apply NoDup_cons. split; [|by apply IH].
  intros (v & Hv & Hin)%list_elem_of_fmap. apply Hu.
  apply list_elem_of_fmap. exists v. split; [done|].
  by apply list_elem_of_filter in Hin as [_ ?].
Qed.

(** Unique references are an invariant of the collection: every method
    that changes [streams] keeps them unique. *)
Lemma unique_refs_invariant (e : Env) :
  NoDup (map UserStream.sid (streams (self e))) →
  (∀ u, NoDup (map UserStream.sid
                 (streams (self (exec (add_official_stream u) e)))))
  ∧ (∀ stream, NoDup (map UserStream.sid
                        (streams (self (exec (add_own_stream stream) e)))))
  ∧ (∀ stream, NoDup (map UserStream.sid
                        (streams (self (exec (remove_official_stream
                                                (Some stream)) e)))))
  ∧ (∀ sid, NoDup (map UserStream.sid
                     (streams (self (exec (remove_own_stream_by_id sid) e)))))
  ∧ NoDup (map UserStream.sid (streams (self (exec Subscriber.delete e)))).
Proof.
  intros Huniq. split; [|split; [|split; [|split]]].
  - intros u. by apply add_official_stream_once.
  - intros stream. by apply add_own_stream_once.
  - intros stream. unfold exec. rewrite remove_official_stream_run.
    by apply unique_refs_filter.
  - intros sid. unfold exec. rewrite remove_own_stream_by_id_run.
    cbn [snd self streams set_streams].
    destruct (istreams e !! sid); [|done].
    rewrite list_delete_filter. by apply unique_refs_filter.
  - unfold exec. rewrite delete_run. by apply unique_refs_filter.
Qed.




(** A personal association is removed by [remove_official_stream] like
    any other. *)
Example remove_official_stream_private :
  streams (self (exec (remove_official_stream (Some (IStream.mk 8 "Home video")))
                   (stored viewer))) = [news].
Proof. reflexivity. Qed.





(** ** Soft delete *)

(** The deletion scenario: the personal stream 8 goes, association and
    catalog document, the official association stays and the status is
    DELETED. *)
Example delete_scenario :
  streams (self (exec Subscriber.delete (stored viewer))) = [news]
  ∧ istreams (exec Subscriber.delete (stored viewer)) !! 8%N = None
  ∧ istreams (exec Subscriber.delete (stored viewer)) !! 7%N = Some "News"%string
  ∧ status (self (exec Subscriber.delete (stored viewer))) = 2.
Proof. repeat split; reflexivity. Qed.



(** After [delete()] the store still shows the subscriber as ACTIVE. *)
Example delete_leaves_stored_status :
  status <$> subscribers (exec Subscriber.delete (stored viewer))
               !! Subscriber.id viewer
  = Some (Status.value Status.ACTIVE)
  ∧ status (self (exec Subscriber.delete (stored viewer)))
    = Status.value Status.DELETED.
Proof. split; reflexivity. Qed.

(** ** Password hashing *)

Example md5_empty :
  MD5.hexdigest (encode "") = "d41d8cd98f00b204e9800998ecf8427e"%string.
Proof. vm_compute. reflexivity. Qed.

Example md5_abc :
  MD5.hexdigest (encode "abc") = "900150983cd24fb0d6963f7d28e17f72"%string.
Proof. vm_compute. reflexivity. Qed.

(** U+00E9 is encoded on two bytes. *)
Example md5_e_acute :
  MD5.hexdigest (encode (String (ascii_of_nat 233) EmptyString))
  = "66ddcd97cfdeabb2f6fb8a999b4bc76f"%string.
Proof. vm_compute. reflexivity. Qed.

(** A message of more than one block. *)
Example md5_two_blocks :
  MD5.hexdigest (replicate 100 97) = "36a92cc94a9e0fa21f625f8bfb007adf"%string.
Proof. vm_compute. reflexivity. Qed.

Example alice_password :
  generate_password_hash "secret" = password alice.
Proof. vm_compute. reflexivity. Qed.

Lemma hexdigit_lower (n : Z) : is_lower_hex (MD5.hexdigit n) = true.
Proof.
  unfold MD5.hexdigit. destruct (n mod 16) as [|p|p]; [done| |done].
  do 4 (try destruct p as [p|p|]); reflexivity.
Qed.

Lemma hex_of_bytes_cons (b : Z) (bs : list Z) :
  MD5.hex_of_bytes (b :: bs)
  = String (MD5.hexdigit (b / 16))
      (String (MD5.hexdigit b) (MD5.hex_of_bytes bs)).
Proof. reflexivity. Qed.

Lemma hex_of_bytes_length (bs : list Z) :
  String.length (MD5.hex_of_bytes bs) = (2 * length bs)%nat.
Proof.
  induction bs as [|b bs IH]; [done|].
  rewrite hex_of_bytes_cons. cbn [String.length length]. rewrite IH. lia.
Qed.

Lemma hex_of_bytes_lower (bs : list Z) :
  forallb is_lower_hex (list_ascii_of_string (MD5.hex_of_bytes bs)) = true.
Proof.
  induction bs as [|b bs IH]; [done|].
  rewrite hex_of_bytes_cons. cbn [list_ascii_of_string forallb].
  by rewrite !hexdigit_lower, IH.
Qed.

Lemma digest_length (msg : list Z) : length (MD5.digest msg) = 16%nat.
Proof. unfold MD5.digest. by destruct (MD5.digest_state msg). Qed.

(** C7, as stated, fails: the hash of one password is accepted for a
    different password with the same digest. *)
Lemma check_password_hash_collision :
  collision_a ≠ collision_b
  ∧ generate_password_hash collision_a = "faad49866e9498fc1719f5289e7a0269"%string
  ∧ check_password_hash (generate_password_hash collision_a) collision_b
    = true.
Proof.
  split; [|split].
  - intros Heq. apply (f_equal (String.get 21)) in Heq. discriminate Heq.
  - vm_compute. reflexivity.
  - vm_compute. reflexivity.
Qed.

(** C7, amended: [check_password_hash h p] is true exactly when [h] is
    [generate_password_hash p]; so the hash of a password is accepted for
    that password, and the hash of [p1] is rejected for [p2] exactly when
    the two hashes differ, which distinct passwords do not guarantee;
    [generate_password_hash] is a function of the password alone and
    always yields 32 characters, each a digit or a letter from a to f. *)
Theorem check_password_hash_spec (hash password p1 p2 : string) :
  (check_password_hash hash password = true
   ↔ hash = generate_password_hash password)
  ∧ check_password_hash (generate_password_hash password) password = true
  ∧ (check_password_hash (generate_password_hash p1) p2 = false
     ↔ generate_password_hash p1 ≠ generate_password_hash p2)
  ∧ (p1 = p2 → generate_password_hash p1 = generate_password_hash p2)
  ∧ String.length (generate_password_hash password) = 32%nat
  ∧ forallb is_lower_hex
      (list_ascii_of_string (generate_password_hash password)) = true.
Proof.
  unfold check_password_hash. split; [apply bool_decide_eq_true|].
  split; [by apply bool_decide_eq_true|].
  split; [apply bool_decide_eq_false|]. split; [by intros ->|].
  unfold generate_password_hash, make_md5_hash_from_password, MD5.hexdigest.
  split.
  - by rewrite hex_of_bytes_length, digest_length.
  - apply hex_of_bytes_lower.
Qed.

(** * Further properties of the methods *)

(** ** Devices and servers *)

Lemma add_server_run (server : ObjectId) (e : Env) :
  add_server server e =
    let s' := set_servers (self e) (servers (self e) ++ [server]) in
    (PyNone, mkEnv s' (<[id (self e) := s']> (subscribers e)) (istreams e)
                   (journal e ++ [Document_save s'])).
Proof. unfold add_server. by run_method. Qed.


(** X2: A second [remove_device] with the same id finds nothing left to
    remove: subscriber, store and catalog stay as the first call left
    them, and only the journal records one more save. *)
Theorem remove_device_twice (sid : ObjectId) (e : Env) :
  self (exec (remove_device sid) (exec (remove_device sid) e))
  = self (exec (remove_device sid) e)
  ∧ subscribers (exec (remove_device sid) (exec (remove_device sid) e))
    = subscribers (exec (remove_device sid) e)
  ∧ istreams (exec (remove_device sid) (exec (remove_device sid) e))
    = istreams (exec (remove_device sid) e)
  ∧ journal (exec (remove_device sid) (exec (remove_device sid) e))
    = journal (exec (remove_device sid) e)
      ++ [EmbeddedDocumentList_save "devices"
            (self (exec (remove_device sid) e))].
Proof.
  unfold exec. rewrite !remove_device_run.
  cbn [snd self subscribers istreams journal devices set_devices id].
  assert (filter (λ d, Device.id d ≠ sid)
            (filter (λ d, Device.id d ≠ sid) (devices (self e)))
          = filter (λ d, Device.id d ≠ sid) (devices (self e))) as ->.
  { rewrite list_filter_filter. apply list_filter_iff. tauto. }
  assert (∀ s l, set_devices (set_devices s l) l = set_devices s l) as ->
    by done.
  split; [done|]. split; [|done]. apply insert_insert_eq.
Qed.



(** X4: Offering a sequence of devices one after the other registers them in
    order until the quota is reached and turns the rest away: the registry
    ends as the old one followed by as many of the offered devices as
    there was room for. *)
Theorem add_devices_fill_quota (offered : list Device.t) (e : Env) :
  devices (self (fold_left (λ e' d, exec (add_device d) e') offered e))
  = devices (self e)
    ++ take (Z.to_nat (max_devices_count (self e)
                       - Z.of_nat (length (devices (self e))))) offered.
Proof.
  revert e. induction offered as [|d offered IH]; intros e.
  - by rewrite take_nil, app_nil_r.
  - cbn [fold_left]. rewrite IH. unfold exec. rewrite add_device_run.
    destruct (decide (_ < _)) as [Hlt|Hge];
      cbn [snd self devices set_devices max_devices_count].
    + rewrite length_app. cbn [length].
      replace (Z.to_nat (max_devices_count (self e)
                         - Z.of_nat (length (devices (self e)))))
        with (S (Z.to_nat (max_devices_count (self e)
                           - Z.of_nat (length (devices (self e)) + 1))))
        by lia.
      cbn [take]. by rewrite <- app_assoc.
    + replace (Z.to_nat (max_devices_count (self e)
                         - Z.of_nat (length (devices (self e)))))
        with 0%nat by lia.
      by rewrite !take_0.
Qed.

(** X5: [add_server] appends without looking for the reference: a server that
    is already attached is attached once more, and the subscriber is
    saved every time. *)
Theorem add_server_appends (server : ObjectId) (e : Env) :
  servers (self (exec (add_server server) e)) = servers (self e) ++ [server]
  ∧ length (filter (λ r, r = server) (servers (self (exec (add_server server) e))))
    = S (length (filter (λ r, r = server) (servers (self e))))
  ∧ devices (self (exec (add_server server) e)) = devices (self e)
  ∧ streams (self (exec (add_server server) e)) = streams (self e)
  ∧ subscribers (exec (add_server server) e) !! id (self e)
    = Some (self (exec (add_server server) e))
  ∧ journal (exec (add_server server) e)
    = journal e ++ [Document_save (self (exec (add_server server) e))].
Proof.
  unfold exec. rewrite add_server_run.
  cbn [snd self subscribers journal servers devices streams set_servers].
  split; [done|]. split; [|split; [done|split; [done|split; [|done]]]].
  - rewrite filter_app, length_app, filter_cons_True by done.
    rewrite filter_nil. simpl. lia.
  - apply lookup_insert_eq.
Qed.

(** ** Stream associations *)

Lemma filter_split_perm {A} (P : A → Prop) `{∀ x, Decision (P x)}
    (l : list A) :
  filter (λ x, ¬ P x) l ++ filter P l ≡ₚ l.
Proof.
  induction l as [|x l IH]; [done|]. rewrite !filter_cons.
  destruct (decide (P x)).
  - rewrite decide_False by tauto.
    rewrite <- Permutation_middle. by constructor.
  - rewrite decide_True by done. cbn. by constructor.
Qed.

(** X6: [official_streams] and [own_streams] split the collection: each keeps
    the order of [streams], every association is in exactly one of them
    according to its [private] flag, and together they are the whole
    collection, which [all_streams] returns as it is. *)
Theorem official_and_own_streams_partition (s : Subscriber.t) :
  official_streams s ++ own_streams s ≡ₚ all_streams s
  ∧ (length (official_streams s) + length (own_streams s)
     = length (streams s))%nat
  ∧ (∀ u, u ∈ official_streams s
          ↔ u ∈ streams s ∧ UserStream.private u = false)
  ∧ (∀ u, u ∈ own_streams s ↔ u ∈ streams s ∧ UserStream.private u = true)
  ∧ official_streams s `sublist_of` streams s
  ∧ own_streams s `sublist_of` streams s.
Proof.
  unfold official_streams, own_streams, all_streams.
  rewrite !only_matches_private.
  assert (filter (λ u, UserStream.private u = false) (streams s)
          = filter (λ u, ¬ UserStream.private u = true) (streams s)) as Hneg.
  { apply list_filter_iff. intros u. by destruct (UserStream.private u). }
  assert (filter (λ u, UserStream.private u = false) (streams s)
          ++ filter (λ u, UserStream.private u = true) (streams s)
          ≡ₚ streams s) as Hperm.
  { rewrite Hneg. apply filter_split_perm. }
  split; [done|]. split.
  { rewrite <- length_app. by rewrite Hperm. }
  split; [|split; [|split]].
  - intros u. by rewrite list_elem_of_filter, (comm and).
  - intros u. by rewrite list_elem_of_filter, (comm and).
  - apply sublist_filter.
  - apply sublist_filter.
Qed.

Lemma remove_official_stream_None_run (e : Env) :
  remove_official_stream None e =
    (PyNone, mkEnv (self e) (<[id (self e) := self e]> (subscribers e))
                   (istreams e)
                   (journal e ++ [EmbeddedDocumentList_save "streams" (self e)])).
Proof.
  unfold remove_official_stream. run_method.
  cbn [fmap option_fmap option_map]. rewrite only_matches_sid_None.
  cbn [list_delete fold_left]. by rewrite set_streams_same.
Qed.

Lemma remove_official_stream_by_id_run (sid : ObjectId) (e : Env) :
  remove_official_stream_by_id sid e =
    remove_official_stream (IStream.mk sid <$> istreams e !! sid) e.
Proof. unfold remove_official_stream_by_id. by run_method. Qed.



Lemma filter_other_refs_snoc (ref : ObjectId) (u : UserStream.t)
    (l : list UserStream.t) (P : UserStream.t → Prop)
    `{∀ v, Decision (P v)} :
  associations ref l = [] → (∀ v, P v → UserStream.sid v = ref) → P u →
  filter (λ v, ¬ P v) (l ++ [u]) = l.
Proof.
  intros Hnone%associations_none Hsid Hu.
  rewrite filter_app, filter_cons_False, filter_nil, app_nil_r by tauto.
  apply filter_keeps_all, Forall_forall. intros v Hv HP. apply Hnone.
  apply list_elem_of_fmap. exists v. by rewrite (Hsid v HP).
Qed.

(** X9: Subscribing to a stream that had no association and removing it with
    [remove_official_stream] gives the subscriber back; the catalog is the
    same throughout. *)
Theorem add_then_remove_official_stream (u : UserStream.t) (body : string)
    (e : Env) :
  associations (UserStream.sid u) (streams (self e)) = [] →
  self (exec (remove_official_stream
                (Some (IStream.mk (UserStream.sid u) body)))
          (exec (add_official_stream u) e))
  = self e
  ∧ istreams (exec (remove_official_stream
                      (Some (IStream.mk (UserStream.sid u) body)))
                (exec (add_official_stream u) e))
    = istreams e.
Proof.
  intros Hnone. unfold exec.
  rewrite remove_official_stream_run, add_official_stream_run, Hnone.
  cbn [snd self istreams streams set_streams IStream.id].
  assert (filter (λ v, UserStream.sid v ≠ UserStream.sid u)
            (streams (self e) ++ [u]) = streams (self e)) as ->.
  { by apply (filter_other_refs_snoc (UserStream.sid u) u _
                (λ v, UserStream.sid v = UserStream.sid u)). }
  split; [|done]. by destruct (self e).
Qed.

Lemma add_then_remove_official_stream_witness :
  self (exec (remove_official_stream (Some (IStream.mk 7 "News")))
          (exec (add_official_stream news) (stored alice)))
  = self (stored alice)
  ∧ istreams (exec (remove_official_stream (Some (IStream.mk 7 "News")))
                (exec (add_official_stream news) (stored alice)))
    = istreams (stored alice).
Proof. apply (add_then_remove_official_stream news "News" (stored alice)). reflexivity. Defined.






(** ** Invariants of the methods *)

(** X14: Every method that changes [streams] keeps the references of the
    collection unique. *)
Theorem unique_refs_kept (e : Env) :
  NoDup (map UserStream.sid (streams (self e))) →
  (∀ u, NoDup (map UserStream.sid
                 (streams (self (exec (add_official_stream u) e)))))
  ∧ (∀ oid, NoDup (map UserStream.sid
                     (streams (self (exec (add_official_stream_by_id oid) e)))))
  ∧ (∀ stream, NoDup (map UserStream.sid
                        (streams (self (exec (add_own_stream stream) e)))))
  ∧ (∀ stream, NoDup (map UserStream.sid
                        (streams (self (exec (remove_official_stream stream)
                                          e)))))
  ∧ (∀ sid, NoDup (map UserStream.sid
                     (streams (self (exec (remove_official_stream_by_id sid)
                                       e)))))
  ∧ (∀ sid, NoDup (map UserStream.sid
                     (streams (self (exec (remove_own_stream_by_id sid) e)))))
  ∧ NoDup (map UserStream.sid (streams (self (exec remove_all_own_streams e))))
  ∧ NoDup (map UserStream.sid (streams (self (exec Subscriber.delete e)))).
Proof.
  intros Huniq.
  assert (∀ stream, NoDup (map UserStream.sid
                      (streams (self (exec (remove_official_stream stream)
                                        e))))) as Hremove.
  { intros [stream|]; unfold exec.
    - rewrite remove_official_stream_run. by apply unique_refs_filter.
    - by rewrite remove_official_stream_None_run. }
  repeat split.
  - intros u. by apply add_official_stream_once.
  - intros oid. by apply add_official_stream_once.
  - intros stream. by apply add_own_stream_once.
  - done.
  - intros sid. unfold exec. rewrite remove_official_stream_by_id_run.
    apply Hremove.
  - intros sid. unfold exec. rewrite remove_own_stream_by_id_run.
    cbn [snd self streams set_streams].
    destruct (istreams e !! sid); [|done].
    rewrite list_delete_filter. by apply unique_refs_filter.
  - unfold exec. rewrite remove_all_own_streams_run.
    by apply unique_refs_filter.
  - unfold exec. rewrite delete_run. by apply unique_refs_filter.
Qed.

Lemma unique_refs_kept_witness :
  NoDup (map UserStream.sid
           (streams (self (exec (add_official_stream_by_id 7)
                             (stored viewer))))).
Proof.
  apply (unique_refs_kept (stored viewer)).
  change (NoDup [7%N; 8%N]). apply NoDup_cons. split.
  - intros Hin. apply list_elem_of_singleton in Hin. discriminate Hin.
  - apply NoDup_singleton.
Defined.



(** ** The playlist of a deleted subscriber *)

Section Playlist_after_delete.
Variable str : ObjectId → string.
Variable self_entry : ObjectId → bool → string.
Variable device_entry :
  ObjectId → string → string → string → string → bool → string.


End Playlist_after_delete.

(** ** Status enumerations *)

(** X17: [Subscriber.Status.coerce] gives a member back unchanged, turns an
    integer into the member with that value, which is a round trip with
    [value], and fails exactly on the integers outside 0, 1 and 2;
    [choices] pairs every member, once and in order, with its name. *)
Theorem subscriber_status_coerce :
  (∀ s, Status.coerce (Status.Member s) = Some s)
  ∧ (∀ s, Status.coerce (Status.Int (Status.value s)) = Some s)
  ∧ (∀ n s, Status.coerce (Status.Int n) = Some s ↔ Status.value s = n)
  ∧ (∀ n, Status.coerce (Status.Int n) = None ↔ n < 0 ∨ 2 < n)
  ∧ (∀ s, (s, Status.name s) ∈ Status.choices)
  ∧ NoDup (map fst Status.choices).
Proof.
  split; [done|]. split; [by intros []|]. split; [|split; [|split]].
  - intros n s. unfold Status.coerce, Status.of_int, Status.members.
    cbn [List.find Status.value].
    destruct (Z.eqb_spec 0 n);
      [|destruct (Z.eqb_spec 1 n); [|destruct (Z.eqb_spec 2 n)]];
      destruct s; cbn [Status.value]; split; intros; try discriminate; try lia; done.
  - intros n. unfold Status.coerce, Status.of_int, Status.members.
    cbn [List.find Status.value].
    destruct (Z.eqb_spec 0 n);
      [|destruct (Z.eqb_spec 1 n); [|destruct (Z.eqb_spec 2 n)]]; split; intros;
      try discriminate; try lia; done.
  - intros []; unfold Status.choices, Status.members; cbn [map Status.name].
    + by left.
    + right. by left.
    + do 2 right. by left.
  - unfold Status.choices, Status.members. cbn [map fst].
    repeat (apply NoDup_cons; split;
            [intros Hin; repeat (apply elem_of_cons in Hin as [Hin|Hin];
                                 [discriminate Hin|]);
             by apply elem_of_nil in Hin|]).
    apply NoDup_nil_2.
Qed.

(** X18: The same for [Device.Status]; as [coerce] goes through the integer
    value, the value of a member of one class coerces to the member of the
    other class at the same rank. *)
Theorem device_status_coerce :
  (∀ s, Device.Status.coerce (Device.Status.Member s) = Some s)
  ∧ (∀ s, Device.Status.coerce (Device.Status.Int (Device.Status.value s))
          = Some s)
  ∧ (∀ n s, Device.Status.coerce (Device.Status.Int n) = Some s
            ↔ Device.Status.value s = n)
  ∧ (∀ n, Device.Status.coerce (Device.Status.Int n) = None ↔ n < 0 ∨ 2 < n)
  ∧ (∀ s, is_Some (Device.Status.coerce (Device.Status.Int (Status.value s))))
  ∧ (∀ s, is_Some (Status.coerce (Status.Int (Device.Status.value s)))).
Proof.
  split; [done|]. split; [by intros []|]. split; [|split; [|split]].
  - intros n s.
    unfold Device.Status.coerce, Device.Status.of_int, Device.Status.members.
    cbn [List.find Device.Status.value].
    destruct (Z.eqb_spec 0 n);
      [|destruct (Z.eqb_spec 1 n); [|destruct (Z.eqb_spec 2 n)]]; destruct s;
      cbn [Device.Status.value];
      split; intros; try discriminate; try lia; done.
  - intros n.
    unfold Device.Status.coerce, Device.Status.of_int, Device.Status.members.
    cbn [List.find Device.Status.value].
    destruct (Z.eqb_spec 0 n);
      [|destruct (Z.eqb_spec 1 n); [|destruct (Z.eqb_spec 2 n)]]; split; intros;
      try discriminate; try lia; done.
  - intros []; by eexists.
  - intros []; by eexists.
Qed.

(** ** Dictionaries *)

Section Dict_facts.
Variable str : ObjectId → string.
Variable date_to_utc_msec : Z → Z.
Variable stream_dict : ObjectId → gmap string DictValue.
Variable stream_front_dict : ObjectId → gmap string DictValue.

(** X19: In [UserStream.to_dict] and [to_front_dict] the flags of the
    association win over whatever the stream's own dictionary holds under
    [favorite], [private] and [recent]; every other key of the stream's
    dictionary comes through unchanged, and no other key is added. *)
Theorem user_stream_dict_overrides (u : UserStream.t) :
  (UserStream.to_dict date_to_utc_msec stream_dict u !! "favorite"%string
   = Some (DBool (UserStream.favorite u))
   ∧ UserStream.to_dict date_to_utc_msec stream_dict u !! "private"%string
     = Some (DBool (UserStream.private u))
   ∧ UserStream.to_dict date_to_utc_msec stream_dict u !! "recent"%string
     = Some (DInt (date_to_utc_msec (UserStream.recent u)))
   ∧ ∀ key : string,
       key ≠ "favorite"%string → key ≠ "private"%string →
       key ≠ "recent"%string →
       UserStream.to_dict date_to_utc_msec stream_dict u !! key
       = stream_dict (UserStream.sid u) !! key)
  ∧ (UserStream.to_front_dict date_to_utc_msec stream_front_dict u
       !! "favorite"%string
     = Some (DBool (UserStream.favorite u))
     ∧ UserStream.to_front_dict date_to_utc_msec stream_front_dict u
         !! "private"%string
       = Some (DBool (UserStream.private u))
     ∧ UserStream.to_front_dict date_to_utc_msec stream_front_dict u
         !! "recent"%string
       = Some (DInt (date_to_utc_msec (UserStream.recent u)))
     ∧ ∀ key : string,
         key ≠ "favorite"%string → key ≠ "private"%string →
         key ≠ "recent"%string →
         UserStream.to_front_dict date_to_utc_msec stream_front_dict u !! key
         = stream_front_dict (UserStream.sid u) !! key).
Proof.
  unfold UserStream.to_dict, UserStream.to_front_dict,
    UserStream.FAVORITE_FIELD, UserStream.PRIVATE_FIELD,
    UserStream.RECENT_FIELD.
  split.
  - split; [|split; [|split]].
    + rewrite !lookup_insert_ne by done. apply lookup_insert_eq.
    + rewrite lookup_insert_ne by done. apply lookup_insert_eq.
    + apply lookup_insert_eq.
    + intros key Hf Hp Hr. by rewrite !lookup_insert_ne by done.
  - split; [|split; [|split]].
    + rewrite !lookup_insert_ne by done. apply lookup_insert_eq.
    + rewrite lookup_insert_ne by done. apply lookup_insert_eq.
    + apply lookup_insert_eq.
    + intros key Hf Hp Hr. by rewrite !lookup_insert_ne by done.
Qed.

(** X20: [Device.to_dict] has exactly the keys [id], [name], [status] and
    [created_date], and two devices have the same dictionary exactly when
    they agree on the string of the id, the name, the status and the
    converted creation date. *)
Theorem device_dict_fields (d1 d2 : Device.t) :
  dom (Device.to_dict str date_to_utc_msec d1)
  = {[ "id"; "name"; "status"; "created_date" ]}%string
  ∧ (Device.to_dict str date_to_utc_msec d1
     = Device.to_dict str date_to_utc_msec d2
     ↔ Device.get_id str d1 = Device.get_id str d2
       ∧ Device.name d1 = Device.name d2
       ∧ Device.status d1 = Device.status d2
       ∧ date_to_utc_msec (Device.created_date d1)
         = date_to_utc_msec (Device.created_date d2)).
Proof.
  unfold Device.to_dict, Device.ID_FIELD, Device.NAME_FIELD,
    Device.STATUS_FIELD, Device.CREATED_DATE_FIELD.
  split.
  - rewrite !dom_insert_L, dom_empty_L. set_solver.
  - split.
    + intros Heq.
      pose proof (f_equal (λ m, m !! "id"%string) Heq) as Hid.
      pose proof (f_equal (λ m, m !! "name"%string) Heq) as Hname.
      pose proof (f_equal (λ m, m !! "status"%string) Heq) as Hstatus.
      pose proof (f_equal (λ m, m !! "created_date"%string) Heq) as Hdate.
      cbn beta in *.
      rewrite !lookup_insert_eq in Hid.
      rewrite !(lookup_insert_ne _ "id"%string), !lookup_insert_eq
        in Hname by done.
      rewrite !(lookup_insert_ne _ "id"%string),
        !(lookup_insert_ne _ "name"%string), !lookup_insert_eq
        in Hstatus by done.
      rewrite !(lookup_insert_ne _ "id"%string),
        !(lookup_insert_ne _ "name"%string),
        !(lookup_insert_ne _ "status"%string), !lookup_insert_eq
        in Hdate by done.
      by simplify_eq.
    + intros (-> & -> & -> & ->). done.
Qed.
End Dict_facts.

(** ** The factory *)

(** X21: A subscriber made by [make_subscriber] stores the 32-character hash
    of the password, which [check_password_hash] accepts for that
    password; it is NOT_ACTIVE and has no server, device or stream.  The
    hash depends on the password alone, so two subscribers made with the
    same password store the same hash. *)
Theorem make_subscriber_password (pk pk' : ObjectId) (now now' count : Z)
    (email first_name last_name password country language : string)
    (email' first_name' last_name' : string) (exp_date exp_date' : Z) :
  check_password_hash
    (Subscriber.password
       (make_subscriber pk now count email first_name last_name password
          country language exp_date))
    password = true
  ∧ Z.of_nat (String.length
               (Subscriber.password
                  (make_subscriber pk now count email first_name last_name
                     password country language exp_date)))
    = SUBSCRIBER_HASH_LENGTH
  ∧ Status.coerce
      (Status.Int (status (make_subscriber pk now count email first_name
                             last_name password country language exp_date)))
    = Some Status.NOT_ACTIVE
  ∧ servers (make_subscriber pk now count email first_name last_name
               password country language exp_date) = []
  ∧ devices (make_subscriber pk now count email first_name last_name
               password country language exp_date) = []
  ∧ streams (make_subscriber pk now count email first_name last_name
               password country language exp_date) = []
  ∧ Subscriber.password
      (make_subscriber pk now count email first_name last_name password
         country language exp_date)
    = Subscriber.password
        (make_subscriber pk' now' count email' first_name' last_name'
           password country language exp_date').
Proof.
  cbn [make_subscriber Subscriber.password status servers devices streams].
  split.
  { unfold check_password_hash, generate_password_hash.
    by apply bool_decide_eq_true. }
  split; [|done].
  unfold make_md5_hash_from_password, MD5.hexdigest.
  by rewrite hex_of_bytes_length, digest_length.
Qed.
